(** * fyeAssist: the MCP demonstration server of [src/index.ts]

    A shallow embedding of the four capability handlers (the [status]
    resource, the [echo_message] and [send-get-request] tools, the
    [generate_slogan] prompt) and of the start-up code, followed by the
    properties the specification states about them.

    JavaScript strings are sequences of UTF-16 code units, values are the
    values a parsed response body can hold, and everything the handlers do to
    the outside world (the axios GET, the transport connection, the
    diagnostic lines, [process.exit]) is an event of a small command tree that
    is run against an explicit description of the world. *)

From Stdlib Require Import List String Ascii Bool NArith ZArith Lia.
From Stdlib Require Import DecimalString.
Import ListNotations.

Set Implicit Arguments.
Set Warnings "-register-all".

(** ** JavaScript strings *)

Module JsString.

(** A string value is a finite sequence of 16-bit code units. *)
Definition code_unit : Type := N.
Definition js_string : Type := list code_unit.

Definition eqb (s1 s2 : js_string) : bool :=
  if list_eq_dec N.eq_dec s1 s2 then true else false.

(** The literals of the source file are written in UTF-8; [js] turns such a
    literal into the code units the engine holds for it. *)
Definition continuation (b : N) : N := N.land b 0x3F.

Fixpoint utf8_code_points (bs : list N) : list N :=
  match bs with
  | [] => []
  | b0 :: r0 =>
      if (b0 <? 0x80)%N then b0 :: utf8_code_points r0
      else
        match r0 with
        | [] => []
        | b1 :: r1 =>
            if (b0 <? 0xE0)%N then
              (N.land b0 0x1F * 0x40 + continuation b1)%N
                :: utf8_code_points r1
            else
              match r1 with
              | [] => []
              | b2 :: r2 =>
                  if (b0 <? 0xF0)%N then
                    (N.land b0 0x0F * 0x1000 + continuation b1 * 0x40
                     + continuation b2)%N :: utf8_code_points r2
                  else
                    match r2 with
                    | [] => []
                    | b3 :: r3 =>
                        (N.land b0 0x07 * 0x40000
                         + continuation b1 * 0x1000
                         + continuation b2 * 0x40
                         + continuation b3)%N :: utf8_code_points r3
                    end
              end
        end
  end.

Definition utf16_encode (cp : N) : js_string :=
  if (cp <? 0x10000)%N then [cp]
  else
    let c := (cp - 0x10000)%N in
    [(0xD800 + c / 0x400)%N; (0xDC00 + c mod 0x400)%N].

Definition js (literal : string) : js_string :=
  flat_map utf16_encode
    (utf8_code_points (map N_of_ascii (list_ascii_of_string literal))).

Definition is_leading_surrogate (c : code_unit) : bool :=
  ((0xD800 <=? c) && (c <=? 0xDBFF))%N.

Definition is_trailing_surrogate (c : code_unit) : bool :=
  ((0xDC00 <=? c) && (c <=? 0xDFFF))%N.

(** [Array.prototype.join] on strings. *)
Fixpoint join (sep : js_string) (parts : list js_string) : js_string :=
  match parts with
  | [] => []
  | [p] => p
  | p :: rest => p ++ sep ++ join sep rest
  end.

End JsString.

Import JsString.

(** ** Values, errors and completions *)

Module Js.

Section Values.

(** The type of numbers (IEEE doubles in the engine) is left abstract.  The
    properties of an object are listed in the order in which the engine
    enumerates them, each key once; [JUndefined] is there because a property
    access can produce it. *)
Variable number : Type.

Inductive JsValue : Type :=
| JUndefined
| JNull
| JBool (b : bool)
| JNumber (n : number)
| JString (s : js_string)
| JArray (elements : list JsValue)
| JObject (properties : list (js_string * JsValue)).

End Values.

Arguments JUndefined {number}.
Arguments JNull {number}.
Arguments JBool {number} b.
Arguments JString {number} s.

(** An [Error] instance, as far as [Error.prototype.toString] reads it. *)
Record JsError : Type := { name : js_string; message : js_string }.

(** How an evaluation completes: with a value, or by throwing.  For an
    [async] function this is how the returned promise settles.  What is
    thrown in this program is always an [Error] instance: the rejections of
    axios and of the transport, and the [TypeError] of the engine. *)
Inductive outcome (A : Type) : Type :=
| Returns (a : A)
| Throws (error : JsError).

Arguments Throws {A} error.

(** [Error.prototype.toString]. *)
Definition Error_toString (e : JsError) : js_string :=
  match name e, message e with
  | [], msg => msg
  | nm, [] => nm
  | nm, msg => nm ++ js ": " ++ msg
  end.

(** [`${x}`] where [x] is either [undefined] or a string. *)
Definition template_of (x : option js_string) : js_string :=
  match x with
  | None => js "undefined"
  | Some s => s
  end.

(** The [TypeError] V8 throws for [base.key] when [base] is [null] or
    [undefined]. *)
Definition TypeError_cannot_read (base key : js_string) : JsError :=
  {| name := js "TypeError";
     message := js "Cannot read properties of " ++ base
                ++ js " (reading '" ++ key ++ js "')" |}.

Fixpoint lookup {V : Type} (key : js_string) (props : list (js_string * V))
  : option V :=
  match props with
  | [] => None
  | (k, v) :: rest => if JsString.eqb key k then Some v else lookup key rest
  end.

(** ** [JSON.stringify] *)

Definition hex_digit (d : N) : code_unit :=
  if (d <? 10)%N then (48 + d)%N else (87 + d)%N.

(** [UnicodeEscape]: a backslash, [u] and four lowercase hex digits. *)
Definition UnicodeEscape (c : code_unit) : js_string :=
  [92%N; 117%N;
   hex_digit (c / 4096); hex_digit ((c / 256) mod 16);
   hex_digit ((c / 16) mod 16); hex_digit (c mod 16)].

Definition escape_unit (c : code_unit) : js_string :=
  if (c =? 8)%N then js "\b"
  else if (c =? 9)%N then js "\t"
  else if (c =? 10)%N then js "\n"
  else if (c =? 12)%N then js "\f"
  else if (c =? 13)%N then js "\r"
  else if (c =? 34)%N then [92%N; 34%N]
  else if (c =? 92)%N then [92%N; 92%N]
  else if (c <? 32)%N then UnicodeEscape c
  else if is_leading_surrogate c || is_trailing_surrogate c
       then UnicodeEscape c
  else [c].

(** The body of [QuoteJSONString]: a surrogate pair is copied, a lone
    surrogate is escaped. *)
Fixpoint quote_units (s : js_string) : js_string :=
  match s with
  | [] => []
  | c :: rest =>
      if is_leading_surrogate c then
        match rest with
        | d :: rest' =>
            if is_trailing_surrogate d then c :: d :: quote_units rest'
            else UnicodeEscape c ++ quote_units rest
        | [] => UnicodeEscape c
        end
      else escape_unit c ++ quote_units rest
  end.

Definition QuoteJSONString (s : js_string) : js_string :=
  [34%N] ++ quote_units s ++ [34%N].

Section Json.

Context {number : Type}.
Variable Number_isFinite : number -> bool.
Variable Number_toString : number -> js_string.

(** [SerializeJSONProperty] without replacer and without indentation;
    [None] stands for the result [undefined]. *)
Fixpoint SerializeJSONProperty (v : JsValue number) : option js_string :=
  match v with
  | JUndefined => None
  | JNull => Some (js "null")
  | JBool true => Some (js "true")
  | JBool false => Some (js "false")
  | JNumber n =>
      Some (if Number_isFinite n then Number_toString n else js "null")
  | JString s => Some (QuoteJSONString s)
  | JArray elements =>
      Some (js "[" ++
            join (js ",")
              (map (fun x => match SerializeJSONProperty x with
                             | Some s => s
                             | None => js "null"
                             end) elements)
            ++ js "]")
  | JObject properties =>
      Some (js "{" ++
            join (js ",")
              (flat_map
                 (fun p => match SerializeJSONProperty (snd p) with
                           | Some s => [QuoteJSONString (fst p) ++ js ":" ++ s]
                           | None => []
                           end) properties)
            ++ js "}")
  end.

Definition JSON_stringify (v : JsValue number) : option js_string :=
  SerializeJSONProperty v.

End Json.

(** [v.data]: reading the property [data] of a value.  Neither the wrapper
    prototypes of the primitives nor [Array.prototype] nor
    [Object.prototype] define [data], so only an own property can answer. *)
Definition get_data {number : Type} (v : JsValue number)
  : outcome (JsValue number) :=
  match v with
  | JUndefined => Throws (TypeError_cannot_read (js "undefined") (js "data"))
  | JNull => Throws (TypeError_cannot_read (js "null") (js "data"))
  | JObject properties =>
      Returns match lookup (js "data") properties with
              | Some x => x
              | None => JUndefined
              end
  | _ => Returns JUndefined
  end.

(** ["data" in Object(v)] for a value other than [null] and [undefined]:
    whether the value holds a property [data]. *)
Definition has_data {number : Type} (v : JsValue number) : bool :=
  match v with
  | JObject properties =>
      match lookup (js "data") properties with
      | Some _ => true
      | None => false
      end
  | _ => false
  end.

End Js.

Import Js.

(** ** The result shapes of the protocol SDK *)

Module Mcp.

(** [{ type: "text", text }] *)
Record TextContent : Type := { type : js_string; text : js_string }.

(** [CallToolResult]: the content items and the optional [isError] flag
    with which a tool reports a failed call. *)
Record CallToolResult : Type :=
  { content : list TextContent; isError : option bool }.

(** A result literal that does not mention [isError]. *)
Definition tool_result (items : list TextContent) : CallToolResult :=
  {| content := items; isError := None |}.

End Mcp.

Module Resource.

(** The part of a [URL] object the handler reads. *)
Record URL : Type := { href : js_string }.

Record TextResourceContents : Type :=
  { uri : js_string; text : js_string; mimeType : js_string }.

Record ReadResourceResult : Type :=
  { contents : list TextResourceContents }.

End Resource.

Module Prompt.

Record PromptMessage : Type :=
  { role : js_string; content : Mcp.TextContent }.

Record GetPromptResult : Type := { messages : list PromptMessage }.

End Prompt.

(** ** The HTTP client *)

Module Axios.

Section Types.

Variable number : Type.

(** The second argument of [axios.get]. *)
Record RequestConfig : Type :=
  { params : list (js_string * JsValue number);
    headers : list (js_string * js_string);
    timeout : Z }.

(** The part of the response object the handler reads: [response.data],
    the body. *)
Record Response : Type := { data : JsValue number }.

(** One call [axios.get(url, config)]. *)
Definition GetCall : Type := (js_string * RequestConfig)%type.

End Types.

Arguments params {number} _.
Arguments headers {number} _.
Arguments timeout {number} _.
Arguments data {number} _.

End Axios.

(** ** Commands and their execution *)

Module Effects.

Inductive StdioServerTransport : Type := new_StdioServerTransport.

(** An argument of [console.error]. *)
Inductive ConsoleArg : Type :=
| Str (s : js_string)
| Err (e : JsError).

Section Commands.

Context {number : Type}.

(** What a piece of the program asks of its environment, and how it goes
    on with the answer. *)
Inductive io (A : Type) : Type :=
| Pure (a : A)
| AxiosGet (url : js_string) (config : Axios.RequestConfig number)
           (k : outcome (Axios.Response number) -> io A)
| ServerConnect (transport : StdioServerTransport)
                (k : outcome unit -> io A)
| ConsoleError (args : list ConsoleArg) (k : io A)
| ProcessExit (code : Z).

Arguments Pure {A} a.
Arguments ProcessExit {A} code.

Fixpoint io_bind {A B : Type} (p : io A) (f : A -> io B) : io B :=
  match p with
  | Pure a => f a
  | AxiosGet url config k => AxiosGet url config (fun r => io_bind (k r) f)
  | ServerConnect transport k =>
      ServerConnect transport (fun r => io_bind (k r) f)
  | ConsoleError args k => ConsoleError args (io_bind k f)
  | ProcessExit code => ProcessExit code
  end.

(** The body of an [async] function: commands that end in a completion. *)
Definition promise (A : Type) : Type := io (outcome A).

Definition resolve {A : Type} (a : A) : promise A := Pure (Returns a).

(** Sequencing inside a function body: a throw skips the rest. *)
Definition and_then {A B : Type} (p : promise A) (f : A -> promise B)
  : promise B :=
  io_bind p (fun r => match r with
                      | Returns a => f a
                      | Throws e => Pure (Throws e)
                      end).

(** [try { body } catch (error) { handler }] *)
Definition try_catch {A : Type} (body : promise A)
           (handler : JsError -> promise A) : promise A :=
  io_bind body (fun r => match r with
                         | Returns a => Pure (Returns a)
                         | Throws e => handler e
                         end).

(** [p.catch(handler)] *)
Definition catch {A : Type} (p : promise A)
           (handler : JsError -> io A) : io A :=
  io_bind p (fun r => match r with
                      | Returns a => Pure a
                      | Throws e => handler e
                      end).

Definition completion {A : Type} (r : outcome A) : promise A := Pure r.

Definition axios_get (url : js_string) (config : Axios.RequestConfig number)
  : promise (Axios.Response number) :=
  AxiosGet url config (fun r => Pure r).

Definition server_connect (transport : StdioServerTransport) : promise unit :=
  ServerConnect transport (fun r => Pure r).

Definition console_error (args : list ConsoleArg) : promise unit :=
  ConsoleError args (Pure (Returns tt)).

(** The environment: what the network answers to a GET, given the GETs
    issued before it, and whether the transport can be connected. *)
Record World : Type :=
  { net : list (Axios.GetCall number) -> Axios.GetCall number
          -> outcome (Axios.Response number);
    transport_connect : outcome unit }.

(** What an observer of the process has seen so far. *)
Record Trace : Type :=
  { requests : list (Axios.GetCall number);
    stderr : list (list ConsoleArg) }.

Definition log_request (call : Axios.GetCall number) (t : Trace) : Trace :=
  {| requests := requests t ++ [call]; stderr := stderr t |}.

Definition log_stderr (line : list ConsoleArg) (t : Trace) : Trace :=
  {| requests := requests t; stderr := stderr t ++ [line] |}.

(** A run ends with the value of the program, or with the process gone. *)
Inductive Final (A : Type) : Type :=
| Done (a : A)
| Exited (code : Z).

Arguments Exited {A} code.

Fixpoint run {A : Type} (w : World) (p : io A) (t : Trace)
  : Final A * Trace :=
  match p with
  | Pure a => (Done a, t)
  | AxiosGet url config k =>
      run w (k (net w (requests t) (url, config)))
          (log_request (url, config) t)
  | ServerConnect _ k => run w (k (transport_connect w)) t
  | ConsoleError args k => run w k (log_stderr args t)
  | ProcessExit code => (Exited code, t)
  end.

(** The number of GETs a program issues when the environment answers as
    [w] does. *)
Definition requests_issued {A : Type} (w : World) (p : io A) (t : Trace)
  : nat :=
  List.length (requests (snd (run w p t))) - List.length (requests t).

End Commands.

Arguments io : clear implicits.
Arguments promise : clear implicits.
Arguments World : clear implicits.
Arguments Trace : clear implicits.
Arguments Pure {number A} a.
Arguments ProcessExit {number A} code.
Arguments Exited {A} code.

End Effects.

Import Effects.

Declare Scope js_scope.
Delimit Scope js_scope with js.
Notation "x <- p ;; q" := (and_then p (fun x => q))
  (at level 61, p at next level, right associativity) : js_scope.
Notation "p ;; q" := (and_then p (fun _ => q))
  (at level 61, right associativity) : js_scope.

(** ** The server of [src/index.ts] *)

Module Server.

Import Mcp.

(** The argument objects the handlers are called with, after the SDK has
    validated them against the schemas given at registration. *)
Record EchoArgs : Type := { message : js_string }.

Record SloganArgs : Type := { theme : js_string }.

Section Handlers.

Context {number : Type}.
Variable Number_isFinite : number -> bool.
Variable Number_toString : number -> js_string.

Local Open Scope js_scope.

(** [type RequestParams] *)
Record RequestParams : Type :=
  { uri : js_string;
    params : list (js_string * JsValue number);
    headers : option (list (js_string * js_string)) }.

(** [h || {}] for an optional record: an object is truthy, [undefined]
    is not. *)
Definition or_empty {V : Type} (h : option (list (js_string * V)))
  : list (js_string * V) :=
  match h with
  | Some record => record
  | None => []
  end.

(** [server.resource("status", "resource://status/server", ...)] *)
Definition status (uri : Resource.URL)
  : promise number Resource.ReadResourceResult :=
  resolve
    {| Resource.contents :=
        [ {| Resource.uri := Resource.href uri;
             Resource.text :=
               js "服务器运行正常，无已知错误。自上次启动以来已处理 100 次请求。";
             Resource.mimeType := js "text/plain" |} ] |}.

(** [server.tool("echo_message", ...)] *)
Definition echo_message (args : EchoArgs) : promise number CallToolResult :=
  let message := message args in
  resolve
    (tool_result
       [ {| type := js "text"; text := js "你说了：" ++ message |} ]).

(** [server.tool("send-get-request", ...)] *)
Definition send_get_request (args : RequestParams)
  : promise number CallToolResult :=
  let uri := uri args in
  let params := params args in
  let headers := headers args in
  try_catch
    (response <- axios_get uri
                   {| Axios.params := params;
                      Axios.headers := or_empty headers;
                      Axios.timeout := 10000 |} ;;
     response_data_data <- completion (get_data (Axios.data response)) ;;
     resolve
       (tool_result
          [ {| type := js "text";
               text := js "请求成功: " ++
                       template_of
                         (JSON_stringify Number_isFinite Number_toString
                            response_data_data) |} ]))
    (fun error =>
       resolve
         (tool_result
            [ {| type := js "text";
                 text := js "请求错误 (" ++ Error_toString error ++ js ")" |} ])).

(** [server.prompt("generate_slogan", ...)]: a plain function, no
    promise. *)
Definition generate_slogan (args : SloganArgs) : Prompt.GetPromptResult :=
  let theme := theme args in
  {| Prompt.messages :=
      [ {| Prompt.role := js "user";
           Prompt.content :=
             {| type := js "text";
                text := js "请为“" ++ theme ++
                        js "”主题生成一句有创意且吸引人的口号。要求口号简短有力，易于传播。" |} |} ] |}.

(** [async function main()] *)
Definition main : promise number unit :=
  let transport := new_StdioServerTransport in
  server_connect transport ;;
  console_error [Str (js "MCP演示服务器已成功启动，并监听Stdio传输。")].

(** The statements of the module, in order: the three registration
    lines written to standard error, then [main().catch(...)]. *)
Definition index : io number unit :=
  ConsoleError [Str (js "已注册资源: resource://status/server")]
    (ConsoleError [Str (js "已注册工具: echo_message")]
       (ConsoleError [Str (js "已注册提示: generate_slogan")]
          (catch main
             (fun error =>
                ConsoleError [Str (js "服务器启动时发生致命错误:"); Err error]
                  (ProcessExit 1))))).

(** The exit code of the process once a run of [index] is over and the
    transport has closed: the argument of [process.exit] when it was
    called; otherwise the runtime exits with [process.exitCode], which
    nothing in the program sets and which is then 0. *)
Definition exit_code (end_of_run : Final unit) : Z :=
  match end_of_run with
  | Exited code => code
  | Done _ => 0
  end.

End Handlers.

Arguments RequestParams : clear implicits.

End Server.

(** ** An instance of the numbers: the integers

    Integers of small magnitude are numbers of the engine, all finite, and
    [Number.prototype.toString] writes them in decimal. *)

Module IntegerNumbers.

Definition number : Type := Z.

Definition isFinite (n : number) : bool := true.

Definition toString (n : number) : js_string :=
  js (NilZero.string_of_int (Z.to_int n)).

End IntegerNumbers.

(** ** Concrete runs *)

Module Runs.

Import IntegerNumbers.
Import Server.

Definition fresh : Trace number := {| requests := []; stderr := [] |}.

Definition args : RequestParams number :=
  {| uri := js "http://example.invalid/"; params := []; headers := None |}.

Definition timed_out : JsError :=
  {| Js.name := js "AxiosError";
     Js.message := js "timeout of 10000ms exceeded" |}.

(** A network on which every GET fails, and one on which every GET is
    answered with the given body. *)
Definition unreachable : World number :=
  {| net := fun _ _ => Throws timed_out; transport_connect := Returns tt |}.

(** A body that wraps its payload in [data], one that does not. *)
Definition wrapped : JsValue number :=
  JObject [ (js "data", JArray [JNumber 1%Z; JNumber 2%Z]);
            (js "code", JNumber 0%Z) ].

Definition unwrapped : JsValue number := JObject [ (js "id", JNumber 7%Z) ].

(** The GET the handler builds for [args]. *)
Definition call : Axios.GetCall number :=
  (js "http://example.invalid/",
   {| Axios.params := []; Axios.headers := []; Axios.timeout := 10000 |}).

Definition answering (body : JsValue number) : World number :=
  {| net := fun _ _ => Returns {| Axios.data := body |};
     transport_connect := Returns tt |}.

End Runs.

(** * Properties *)

Import Mcp.
Import Server.

(** ** Strings and serialization *)

Lemma eqb_true_eq (s1 s2 : js_string) : JsString.eqb s1 s2 = true -> s1 = s2.
Proof.
  unfold JsString.eqb. destruct (list_eq_dec N.eq_dec s1 s2); congruence.
Qed.

(** A literal that opens with an ASCII character opens with the code unit
    of that character. *)
Lemma js_ascii_head (c : ascii) (rest : string) :
  (N_of_ascii c <? 0x80)%N = true -> js (String c rest) = N_of_ascii c :: js rest.
Proof.
  intros H. unfold js. cbn [list_ascii_of_string map utf8_code_points].
  rewrite H. cbn [flat_map]. unfold utf16_encode at 1.
  apply N.ltb_lt in H.
  replace (N_of_ascii c <? 0x10000)%N with true
    by (symmetry; apply N.ltb_lt; lia).
  reflexivity.
Qed.

Lemma lookup_Some_In {V : Type} (key : js_string) (props : list (js_string * V)) v :
  lookup key props = Some v -> In (key, v) props.
Proof.
  induction props as [|[k x] rest IH]; simpl; [discriminate|].
  destruct (JsString.eqb key k) eqn:E.
  - intros [= ->]. apply eqb_true_eq in E. subst. now left.
  - intros H. right. auto.
Qed.

Lemma join_length_In (sep : js_string) (parts : list js_string) (p : js_string) :
  In p parts -> List.length p <= List.length (join sep parts).
Proof.
  induction parts as [|q rest IH]; [intros []|].
  intros [->|Hin].
  - destruct rest; simpl; [lia|]. rewrite !length_app. lia.
  - destruct rest as [|r rest']; [destruct Hin|].
    change (join sep (q :: r :: rest')) with (q ++ sep ++ join sep (r :: rest')).
    rewrite !length_app. specialize (IH Hin). lia.
Qed.

Section Properties.

Context {number : Type}.
Variable Number_isFinite : number -> bool.
Variable Number_toString : number -> js_string.

Local Abbreviation stringify := (JSON_stringify Number_isFinite Number_toString).
Local Abbreviation send_get_request := (send_get_request Number_isFinite Number_toString).

(** Only [undefined] has no serialization. *)
Lemma stringify_defined (v : JsValue number) :
  v <> JUndefined -> exists s, stringify v = Some s.
Proof.
  destruct v as [| |[|]| | | |]; intros H; try (eexists; reflexivity).
  now elim H.
Qed.

(** The text of an object is longer than the text of any of its
    property values. *)
Lemma stringify_object_longer (props : list (js_string * JsValue number)) key v s :
  In (key, v) props -> stringify v = Some s ->
  exists whole, stringify (JObject props) = Some whole
                /\ List.length s < List.length whole.
Proof.
  intros Hin Hs.
  pose (part := fun p : js_string * JsValue number =>
                  match stringify (snd p) with
                  | Some s => [QuoteJSONString (fst p) ++ js ":" ++ s]
                  | None => []
                  end).
  assert (Hpart : In (QuoteJSONString key ++ js ":" ++ s) (flat_map part props)).
  { apply in_flat_map. exists (key, v). split; [exact Hin|].
    unfold part. simpl. rewrite Hs. now left. }
  apply (join_length_In (js ",")) in Hpart.
  exists (js "{" ++ join (js ",") (flat_map part props) ++ js "}").
  split; [reflexivity|].
  rewrite !length_app in *. simpl in *. lia.
Qed.

(** ** The pure handlers *)

(** C2. For every string [message] the [echo_message] handler resolves with
    exactly one text item whose text is the prefix "你说了：" followed by
    [message], unchanged, whatever the environment and without touching it;
    for the message "hello" the text is "你说了：hello". *)
Theorem echo_message_prefixes_message :
  (forall (w : World number) (t : Trace number) (args : EchoArgs),
      run w (echo_message args) t =
      (Done (Returns {| content := [ {| type := js "text";
                                        text := js "你说了：" ++ message args |} ];
                        isError := None |}), t))
  /\ (forall (w : World number) (t : Trace number),
         run w (echo_message {| message := js "hello" |}) t =
         (Done (Returns {| content := [ {| type := js "text";
                                           text := js "你说了：hello" |} ];
                           isError := None |}), t)).
Proof.
  split; intros; reflexivity.
Qed.

(** C4. Every request to the [status] resource, in any environment and after
    any history, resolves with one content item holding the same fixed status
    text and the MIME type text/plain; the handler issues no command (the
    trace of the process is unchanged) and cannot reject. *)
Theorem status_is_fixed :
  forall (w : World number) (t : Trace number) (uri : Resource.URL),
  exists item,
    run w (status uri) t = (Done (Returns {| Resource.contents := [item] |}), t)
    /\ Resource.text item =
       js "服务器运行正常，无已知错误。自上次启动以来已处理 100 次请求。"
    /\ Resource.mimeType item = js "text/plain".
Proof.
  intros w t uri. eexists. split; [reflexivity|]. split; reflexivity.
Qed.

(** C10. The [uri] field of the content item the [status] resource returns is
    the [href] of the URL it was requested with. *)
Theorem status_echoes_request_uri :
  forall (w : World number) (t : Trace number) (uri : Resource.URL),
  exists result,
    run w (status uri) t = (Done (Returns result), t)
    /\ map Resource.uri (Resource.contents result) = [Resource.href uri].
Proof.
  intros w t uri. eexists. split; reflexivity.
Qed.

(** C5. For every string [theme] the [generate_slogan] handler, a function of
    its argument alone, returns exactly one message, of role "user", whose
    text is the fixed template with [theme] put between its two fixed
    halves. *)
Theorem generate_slogan_interpolates_theme :
  exists before after : js_string,
    before = js "请为“"
    /\ after = js "”主题生成一句有创意且吸引人的口号。要求口号简短有力，易于传播。"
    /\ forall args : SloganArgs,
        generate_slogan args =
        {| Prompt.messages :=
            [ {| Prompt.role := js "user";
                 Prompt.content :=
                   {| type := js "text";
                      text := before ++ theme args ++ after |} |} ] |}.
Proof.
  do 2 eexists. split; [reflexivity|]. split; [reflexivity|].
  intros args. reflexivity.
Qed.

(** ** The GET proxy *)

(** The handler first issues its GET and goes on with the answer. *)
Lemma run_send_get_request (w : World number) (t : Trace number) (args : RequestParams number) :
  let call := (uri args,
               {| Axios.params := params args;
                  Axios.headers := or_empty (headers args);
                  Axios.timeout := 10000 |}) in
  exists reply,
    run w (send_get_request args) t =
    (Done (Returns {| content := [ {| type := js "text"; text := reply |} ];
                      isError := None |}),
     log_request call t).
Proof.
  unfold send_get_request, try_catch, and_then, axios_get, completion, resolve.
  cbn [run io_bind].
  destruct (net w _ _) as [[body]|e]; cbn [run io_bind Axios.data].
  - destruct body; cbn [get_data run io_bind]; eexists; reflexivity.
  - eexists; reflexivity.
Qed.

(** The promise of the handler never rejects: whatever the network does,
    and whatever the body holds, the call resolves with one text item and
    no [isError] flag. *)
Lemma send_get_request_always_resolves
      (w : World number) (t : Trace number) (args : RequestParams number) :
  exists item,
    fst (run w (send_get_request args) t) =
    Done (Returns {| content := [item]; isError := None |})
    /\ type item = js "text".
Proof.
  destruct (run_send_get_request w t args) as [reply H].
  rewrite H. eexists. split; reflexivity.
Qed.

(** C1. When the GET throws an error, the promise of the [send-get-request]
    handler still resolves: with a result that has no [isError] flag and
    exactly one text item, whose text is the fixed opening "请求错误 (", the
    error converted to a string, and the closing bracket of the template. *)
Theorem send_get_request_failure_is_text_reply :
  forall (w : World number) (t : Trace number) (args : RequestParams number) (e : JsError),
    net w (requests t)
        (uri args,
         {| Axios.params := params args;
            Axios.headers := or_empty (headers args);
            Axios.timeout := 10000 |}) = Throws e ->
    run w (send_get_request args) t =
    (Done (Returns {| content :=
                       [ {| type := js "text";
                            text := js "请求错误 (" ++ Error_toString e ++ js ")" |} ];
                      isError := None |}),
     log_request (uri args,
                  {| Axios.params := params args;
                     Axios.headers := or_empty (headers args);
                     Axios.timeout := 10000 |}) t).
Proof.
  intros w t args e H.
  unfold send_get_request, try_catch, and_then, axios_get, completion, resolve.
  cbn [run io_bind]. rewrite H. reflexivity.
Qed.

(** C3. When the GET succeeds and the body is an object with a property
    [data] of value [X] (a value that has a JSON text at all), the result is
    one text item whose text is the prefix "请求成功: " followed by the JSON
    text of [X]; that text is never the JSON text of the whole body. *)
Theorem send_get_request_success_serializes_data :
  forall (w : World number) (t : Trace number) (args : RequestParams number)
         (properties : list (js_string * JsValue number)) (X : JsValue number),
    net w (requests t)
        (uri args,
         {| Axios.params := params args;
            Axios.headers := or_empty (headers args);
            Axios.timeout := 10000 |})
    = Returns {| Axios.data := JObject properties |} ->
    lookup (js "data") properties = Some X ->
    X <> JUndefined ->
    exists serialized,
      stringify X = Some serialized
      /\ fst (run w (send_get_request args) t) =
         Done (Returns {| content := [ {| type := js "text";
                                          text := js "请求成功: " ++ serialized |} ];
                          isError := None |})
      /\ stringify (JObject properties) <> Some serialized.
Proof.
  intros w t args properties X Hnet Hdata Hdef.
  destruct (stringify_defined Hdef) as [serialized Hs].
  exists serialized. split; [exact Hs|]. split.
  - unfold send_get_request, try_catch, and_then, axios_get, completion, resolve.
    cbn [run io_bind]. rewrite Hnet.
    cbn [run io_bind Axios.data get_data fst]. rewrite Hdata, Hs. reflexivity.
  - pose proof (lookup_Some_In _ _ Hdata) as Hin.
    destruct (@stringify_object_longer properties _ _ _ Hin Hs)
      as (whole & Hwhole & Hlen).
    rewrite Hwhole. intros [= ->]. lia.
Qed.

(** C6. Every invocation of the [send-get-request] handler issues exactly one
    GET: to the given [uri], with [params] as the query parameters, the given
    [headers] (none when they are omitted) as the request headers and a
    timeout of 10000 ms.  Whatever the answer, no second request follows. *)
Theorem send_get_request_issues_one_get :
  forall (w : World number) (t : Trace number) (args : RequestParams number),
    requests (snd (run w (send_get_request args) t)) =
    requests t ++
      [ (uri args,
         {| Axios.params := params args;
            Axios.headers := match headers args with
                             | Some given => given
                             | None => []
                             end;
            Axios.timeout := 10000 |}) ]
    /\ requests_issued w (send_get_request args) t = 1.
Proof.
  intros w t args.
  destruct (run_send_get_request w t args) as [reply H].
  unfold requests_issued. rewrite H. cbn [snd log_request requests].
  split; [reflexivity|]. rewrite length_app. simpl. lia.
Qed.

(** C7, as the code has it.  When the GET succeeds and the body is neither
    [null] nor [undefined] and holds no property [data], the handler answers
    on its success path, with the text "请求成功: undefined". *)
Theorem send_get_request_missing_data_is_success :
  forall (w : World number) (t : Trace number) (args : RequestParams number)
         (body : JsValue number),
    net w (requests t)
        (uri args,
         {| Axios.params := params args;
            Axios.headers := or_empty (headers args);
            Axios.timeout := 10000 |})
    = Returns {| Axios.data := body |} ->
    body <> JNull ->
    body <> JUndefined ->
    has_data body = false ->
    fst (run w (send_get_request args) t) =
    Done (Returns {| content := [ {| type := js "text";
                                     text := js "请求成功: undefined" |} ];
                     isError := None |}).
Proof.
  intros w t args body Hnet Hnull Hundef Hdata.
  unfold send_get_request, try_catch, and_then, axios_get, completion, resolve.
  cbn [run io_bind]. rewrite Hnet. cbn [run io_bind Axios.data].
  destruct body; try congruence; cbn [get_data run io_bind fst]; try reflexivity.
  unfold has_data in Hdata.
  destruct (lookup (js "data") properties); [discriminate|reflexivity].
Qed.

(** A body that is [null] is not read: the property access throws inside
    the [try] block and the handler answers on its error path. *)
Lemma send_get_request_null_body_is_error
      (w : World number) (t : Trace number) (args : RequestParams number) :
  net w (requests t)
      (uri args,
       {| Axios.params := params args;
          Axios.headers := or_empty (headers args);
          Axios.timeout := 10000 |})
  = Returns {| Axios.data := JNull |} ->
  fst (run w (send_get_request args) t) =
  Done (Returns
          {| content :=
              [ {| type := js "text";
                   text := js "请求错误 (" ++
                           Error_toString
                             (TypeError_cannot_read (js "null") (js "data"))
                           ++ js ")" |} ];
             isError := None |}).
Proof.
  intros Hnet.
  unfold send_get_request, try_catch, and_then, axios_get, completion, resolve.
  cbn [run io_bind]. rewrite Hnet. reflexivity.
Qed.

(** C9. When [headers] is omitted the GET goes out with an empty header
    record, and the whole run is the one of an invocation that passes the
    empty record. *)
Theorem send_get_request_omitted_headers :
  forall (w : World number) (t : Trace number) (u : js_string)
         (p : list (js_string * JsValue number)),
    requests (snd (run w (send_get_request
                            {| uri := u; params := p; headers := None |}) t)) =
    requests t ++
      [ (u, {| Axios.params := p; Axios.headers := []; Axios.timeout := 10000 |}) ]
    /\ run w (send_get_request {| uri := u; params := p; headers := None |}) t =
       run w (send_get_request {| uri := u; params := p; headers := Some [] |}) t.
Proof.
  intros w t u p. split; [|reflexivity].
  destruct (run_send_get_request w t {| uri := u; params := p; headers := None |})
    as [reply H].
  rewrite H. reflexivity.
Qed.

(** ** Start-up *)

(** [main] rejects exactly when the transport cannot be connected. *)
Lemma main_rejects_iff (w : World number) (t : Trace number) (e : JsError) :
  fst (run w main t) = Done (Throws e) <-> transport_connect w = Throws e.
Proof.
  unfold main, and_then, server_connect, console_error. cbn [run io_bind].
  destruct (transport_connect w) as [[]|e']; cbn [run io_bind fst].
  - split; discriminate.
  - split; intros [= ->]; reflexivity.
Qed.

(** C8. When the transport cannot be connected, so that [main] rejects, the
    run of the module ends in [process.exit(1)] and the exit code is 1; when
    it can, the module runs to its end without calling [process.exit] and
    the exit code at shutdown is 0. *)
Theorem startup_exit_codes :
  forall (w : World number) (t : Trace number),
    match transport_connect w with
    | Throws _ =>
        fst (run w index t) = Exited 1
        /\ exit_code (fst (run w index t)) = 1%Z
    | Returns _ =>
        fst (run w index t) = Done tt
        /\ exit_code (fst (run w index t)) = 0%Z
    end.
Proof.
  intros w t.
  unfold index, catch, main, and_then, server_connect, console_error.
  cbn [run io_bind].
  destruct (transport_connect w) as [[]|e]; cbn [run io_bind fst exit_code];
    split; reflexivity.
Qed.

(** ** Further properties of the handlers *)

(** Running [p] and going on with [f] is running [p] and then, unless the
    process is gone, running [f] on its value from the trace [p] left. *)
Lemma run_io_bind {A B : Type} (w : World number) (p : io number A)
      (f : A -> io number B) (t : Trace number) :
  run w (io_bind p f) t =
  match run w p t with
  | (Done a, t') => run w (f a) t'
  | (Exited code, t') => (Exited code, t')
  end.
Proof.
  revert t. induction p as [a|url config k IH|transport k IH|line k IH|code];
    intros t; cbn [run io_bind]; auto.
Qed.

(** X1. Whatever the network answers and whatever the body holds, the
    promise of the [send-get-request] handler is never rejected, the handler
    never ends the process, and it writes nothing to standard error. *)
Theorem send_get_request_never_rejects :
  forall (w : World number) (t : Trace number) (args : RequestParams number),
    (forall e, fst (run w (send_get_request args) t) <> Done (Throws e))
    /\ (forall code, fst (run w (send_get_request args) t) <> Exited code)
    /\ stderr (snd (run w (send_get_request args) t)) = stderr t.
Proof.
  intros w t args.
  destruct (run_send_get_request w t args) as [reply H]. rewrite H.
  cbn [fst snd log_request stderr].
  split; [|split]; [intros e|intros code|reflexivity]; discriminate.
Qed.

(** The two openings of a reply part at their third code unit. *)
Lemma openings_differ (x y : js_string) :
  js "请求成功: " ++ x <> js "请求错误 (" ++ y.
Proof.
  intros H. vm_compute in H. discriminate H.
Qed.

(** X2. The opening of the reply text tells how the call went: the text
    opens with "请求成功: " exactly when the GET succeeded with a body other
    than [null] and [undefined], and with "请求错误 (" exactly when the GET
    threw or the body was [null] or [undefined]. *)
Theorem send_get_request_opening_tells_outcome :
  forall (w : World number) (t : Trace number) (args : RequestParams number),
  exists reply,
    fst (run w (send_get_request args) t) =
    Done (Returns {| content := [ {| type := js "text"; text := reply |} ];
                     isError := None |})
    /\ ((exists rest, reply = js "请求成功: " ++ rest) <->
        (exists body,
            net w (requests t)
                (uri args,
                 {| Axios.params := params args;
                    Axios.headers := or_empty (headers args);
                    Axios.timeout := 10000 |})
            = Returns {| Axios.data := body |}
            /\ body <> JNull /\ body <> JUndefined))
    /\ ((exists rest, reply = js "请求错误 (" ++ rest) <->
        ((exists e,
             net w (requests t)
                 (uri args,
                  {| Axios.params := params args;
                     Axios.headers := or_empty (headers args);
                     Axios.timeout := 10000 |}) = Throws e)
         \/ (exists body,
                net w (requests t)
                    (uri args,
                     {| Axios.params := params args;
                        Axios.headers := or_empty (headers args);
                        Axios.timeout := 10000 |})
                = Returns {| Axios.data := body |}
                /\ (body = JNull \/ body = JUndefined)))).
Proof.
  intros w t args.
  unfold send_get_request, try_catch, and_then, axios_get, completion, resolve.
  cbn [run io_bind].
  destruct (net w _ _) as [[body]|e]; cbn [run io_bind Axios.data].
  - destruct body; cbn [get_data run io_bind fst];
      (eexists; split; [reflexivity|]); (split; split).
    all: first
      [ (* a body that cannot be read *)
        intros [rest H]; symmetry in H; elim (openings_differ H)
      | intros (body' & Heq & Hnull & Hundef); exfalso;
        injection Heq as <-; congruence
      | intros _; right; eexists; split; [reflexivity|]; auto; fail
        (* a body that can *)
      | intros [rest H]; elim (openings_differ H)
      | intros [[e He]|(body' & Heq & [Hb|Hb])];
        [discriminate He
        |injection Heq as <-; discriminate Hb
        |injection Heq as <-; discriminate Hb]
      | intros _; eexists; split; [reflexivity|]; split; discriminate
      | intros _; eexists; reflexivity ].
  - eexists; split; [reflexivity|]. split; split.
    + intros [rest H]. symmetry in H. elim (openings_differ H).
    + intros (body' & Heq & _). discriminate Heq.
    + intros _. left. eexists. reflexivity.
    + intros _. eexists. reflexivity.
Qed.

(** X3. When the GET succeeds with a body that is [null] or [undefined],
    reading [data] from it throws inside the [try] block, and the reply is
    the error text that carries the [TypeError] naming the body. *)
Theorem send_get_request_unreadable_body_is_error :
  forall (w : World number) (t : Trace number) (args : RequestParams number)
         (body : JsValue number),
    net w (requests t)
        (uri args,
         {| Axios.params := params args;
            Axios.headers := or_empty (headers args);
            Axios.timeout := 10000 |})
    = Returns {| Axios.data := body |} ->
    body = JNull \/ body = JUndefined ->
    exists what,
      (body = JNull /\ what = js "null"
       \/ body = JUndefined /\ what = js "undefined")
      /\ fst (run w (send_get_request args) t) =
         Done (Returns
                 {| content :=
                     [ {| type := js "text";
                          text := js "请求错误 (TypeError: Cannot read properties of "
                                  ++ what ++ js " (reading 'data'))" |} ];
                    isError := None |}).
Proof.
  intros w t args body Hnet Hbody.
  unfold send_get_request, try_catch, and_then, axios_get, completion, resolve.
  cbn [run io_bind]. rewrite Hnet. cbn [run io_bind Axios.data].
  destruct Hbody as [-> | ->]; cbn [get_data run io_bind fst].
  - exists (js "null"). split; [left; split; reflexivity|]. reflexivity.
  - exists (js "undefined"). split; [right; split; reflexivity|]. reflexivity.
Qed.

(** X4. A property [data] that is there is never reported as missing:
    provided no number is written as the word "undefined", a body whose
    [data] holds a value never gives the text "请求成功: undefined". *)
Theorem send_get_request_present_data_is_not_undefined :
  (forall n, Number_toString n <> js "undefined") ->
  forall (w : World number) (t : Trace number) (args : RequestParams number)
         (properties : list (js_string * JsValue number)) (X : JsValue number),
    net w (requests t)
        (uri args,
         {| Axios.params := params args;
            Axios.headers := or_empty (headers args);
            Axios.timeout := 10000 |})
    = Returns {| Axios.data := JObject properties |} ->
    lookup (js "data") properties = Some X ->
    X <> JUndefined ->
    fst (run w (send_get_request args) t) <>
    Done (Returns {| content := [ {| type := js "text";
                                     text := js "请求成功: undefined" |} ];
                     isError := None |}).
Proof.
  intros Hnumber w t args properties X Hnet Hdata Hdef.
  unfold send_get_request, try_catch, and_then, axios_get, completion, resolve.
  cbn [run io_bind]. rewrite Hnet.
  cbn [run io_bind Axios.data get_data fst]. rewrite Hdata.
  intros H. injection H as H.
  destruct X as [| |[|]|n|s|elements|props];
    cbn [JSON_stringify SerializeJSONProperty template_of] in H.
  - now elim Hdef.
  - vm_compute in H. discriminate H.
  - vm_compute in H. discriminate H.
  - vm_compute in H. discriminate H.
  - destruct (Number_isFinite n).
    + exact (Hnumber n H).
    + vm_compute in H. discriminate H.
  - unfold QuoteJSONString in H. discriminate H.
  - change (js "[") with [91%N] in H. discriminate H.
  - change (js "{") with [123%N] in H. discriminate H.
Qed.

(** X5. The start-up code talks to standard error only.  It issues no GET,
    and it writes four lines: the three registration lines in the order of
    the registrations, then the line that the server has started when the
    transport could be connected, or else the fatal-error line together with
    the error itself, and never both. *)
Theorem startup_diagnostics :
  forall (w : World number) (t : Trace number),
    requests (snd (run w index t)) = requests t
    /\ stderr (snd (run w index t)) =
       stderr t ++
         [ [Str (js "已注册资源: resource://status/server")];
           [Str (js "已注册工具: echo_message")];
           [Str (js "已注册提示: generate_slogan")];
           match transport_connect w with
           | Returns _ => [Str (js "MCP演示服务器已成功启动，并监听Stdio传输。")]
           | Throws e => [Str (js "服务器启动时发生致命错误:"); Err e]
           end ].
Proof.
  intros w t.
  unfold index, catch, main, and_then, server_connect, console_error.
  cbn [run io_bind].
  destruct (transport_connect w) as [[]|e];
    cbn [run io_bind snd log_stderr requests stderr];
    (split; [reflexivity|]); rewrite <- !app_assoc; reflexivity.
Qed.

(** X6. Invocations of [send-get-request] served one after the other issue
    one GET each, in the order of the invocations, whatever the network
    answers to any of them: a failed GET does not keep a later invocation
    from issuing its own. *)
Theorem send_get_request_sequence_issues_gets_in_order :
  forall (invocations : list (RequestParams number))
         (w : World number) (t : Trace number),
    run w (fold_right
             (fun args rest => io_bind (send_get_request args) (fun _ => rest))
             (Pure tt) invocations) t =
    (Done tt,
     {| requests :=
         requests t ++
           map (fun args =>
                  (uri args,
                   {| Axios.params := params args;
                      Axios.headers := or_empty (headers args);
                      Axios.timeout := 10000 |})) invocations;
        stderr := stderr t |}).
Proof.
  induction invocations as [|args rest IH]; intros w t.
  - cbn [fold_right run map]. rewrite app_nil_r. destruct t; reflexivity.
  - cbn [fold_right map]. rewrite run_io_bind.
    destruct (run_send_get_request w t args) as [reply H]. rewrite H.
    rewrite IH. cbn [log_request requests stderr].
    rewrite <- app_assoc. reflexivity.
Qed.

(** X7. The echo loses nothing: dropping the four code units of the prefix
    from the text of the reply gives back the message, so two messages are
    echoed alike only when they are the same message. *)
Theorem echo_message_is_lossless :
  (forall (w : World number) (t : Trace number) (args : EchoArgs),
   exists item,
     fst (run w (echo_message args) t) =
     Done (Returns {| content := [item]; isError := None |})
     /\ skipn 4 (text item) = message args)
  /\ (forall args1 args2 : EchoArgs,
         @echo_message number args1 = echo_message args2 <->
         message args1 = message args2).
Proof.
  split.
  - intros w t args. eexists. split; reflexivity.
  - intros [m1] [m2]. cbn [message]. split.
    + unfold echo_message, resolve, tool_result. cbn [message].
      intros H. injection H as H. exact H.
    + intros ->. reflexivity.
Qed.

(** X8. The prompt determines its theme: two themes give the same prompt
    only when they are the same theme. *)
Theorem generate_slogan_is_injective :
  forall args1 args2 : SloganArgs,
    generate_slogan args1 = generate_slogan args2 -> args1 = args2.
Proof.
  intros [theme1] [theme2]. unfold generate_slogan. cbn [theme].
  intros H. injection H as H.
  apply app_inv_tail in H. now subst.
Qed.

End Properties.

(** ** The properties at concrete runs *)

Import IntegerNumbers.

(** C1 on a network where the GET times out. *)
Lemma send_get_request_failure_witness :
  net Runs.unreachable (requests Runs.fresh) Runs.call = Throws Runs.timed_out
  /\ run Runs.unreachable (send_get_request isFinite toString Runs.args) Runs.fresh =
     (Done (Returns
              {| content :=
                  [ {| type := js "text";
                       text := js "请求错误 (AxiosError: timeout of 10000ms exceeded)" |} ];
                 isError := None |}),
      {| requests := [Runs.call]; stderr := [] |}).
Proof.
  split; [reflexivity|].
  apply (@send_get_request_failure_is_text_reply number isFinite toString
           Runs.unreachable Runs.fresh Runs.args Runs.timed_out).
  reflexivity.
Defined.

(** C3 on a body that wraps the array [[1,2]] in [data]. *)
Lemma send_get_request_success_witness :
  net (Runs.answering Runs.wrapped) (requests Runs.fresh) Runs.call
  = Returns {| Axios.data := Runs.wrapped |}
  /\ exists serialized,
      JSON_stringify isFinite toString (JArray [JNumber 1%Z; JNumber 2%Z])
      = Some serialized
      /\ fst (run (Runs.answering Runs.wrapped)
                  (send_get_request isFinite toString Runs.args) Runs.fresh) =
         Done (Returns {| content := [ {| type := js "text";
                                          text := js "请求成功: " ++ serialized |} ];
                          isError := None |})
      /\ JSON_stringify isFinite toString Runs.wrapped <> Some serialized.
Proof.
  split; [reflexivity|].
  apply (@send_get_request_success_serializes_data number isFinite toString
           (Runs.answering Runs.wrapped) Runs.fresh Runs.args
           [ (js "data", JArray [JNumber 1%Z; JNumber 2%Z]);
             (js "code", JNumber 0%Z) ]
           (JArray [JNumber 1%Z; JNumber 2%Z])).
  - reflexivity.
  - reflexivity.
  - discriminate.
Defined.

(** C7, as the code has it, on a body without [data]. *)
Lemma send_get_request_missing_data_witness :
  has_data Runs.unwrapped = false
  /\ fst (run (Runs.answering Runs.unwrapped)
              (send_get_request isFinite toString Runs.args) Runs.fresh) =
     Done (Returns {| content := [ {| type := js "text";
                                      text := js "请求成功: undefined" |} ];
                      isError := None |}).
Proof.
  split; [reflexivity|].
  apply (@send_get_request_missing_data_is_success number isFinite toString
           (Runs.answering Runs.unwrapped) Runs.fresh Runs.args Runs.unwrapped).
  - reflexivity.
  - discriminate.
  - discriminate.
  - reflexivity.
Defined.

(** C7 as the specification words it fails when the endpoint answers with
    the body [null]: the GET succeeds, the body holds no [data], and the
    handler answers on its error path, not with the success text. *)
Lemma null_body_takes_error_path :
  net (Runs.answering JNull) (requests Runs.fresh) Runs.call
  = Returns {| Axios.data := JNull |}
  /\ has_data (@JNull number) = false
  /\ fst (run (Runs.answering JNull)
              (send_get_request isFinite toString Runs.args) Runs.fresh) =
     Done (Returns
             {| content :=
                 [ {| type := js "text";
                      text := js "请求错误 (TypeError: Cannot read properties of null (reading 'data'))" |} ];
                isError := None |})
  /\ fst (run (Runs.answering JNull)
              (send_get_request isFinite toString Runs.args) Runs.fresh) <>
     Done (Returns {| content := [ {| type := js "text";
                                      text := js "请求成功: undefined" |} ];
                      isError := None |}).
Proof.
  repeat split; try reflexivity.
  vm_compute. discriminate.
Qed.

(** The decimal text of an integer opens with a digit or a minus sign, so
    it is never the word "undefined". *)
Lemma toString_is_not_undefined (n : number) : toString n <> js "undefined".
Proof.
  assert (E : js "undefined" = 117%N :: js "ndefined") by (vm_compute; reflexivity).
  unfold toString. rewrite E. intros H.
  destruct (Z.to_int n) as [d|d]; cbn [NilZero.string_of_int] in H.
  - destruct d; cbn [NilZero.string_of_uint NilEmpty.string_of_uint] in H;
      rewrite js_ascii_head in H by reflexivity;
      injection H as H _; vm_compute in H; discriminate H.
  - rewrite js_ascii_head in H by reflexivity.
    injection H as H _. vm_compute in H. discriminate H.
Qed.

(** X3 on an endpoint that answers with the body [null]. *)
Lemma send_get_request_unreadable_body_witness :
  net (Runs.answering JNull) (requests Runs.fresh) Runs.call
  = Returns {| Axios.data := JNull |}
  /\ exists what,
      (@JNull number = JNull /\ what = js "null"
       \/ @JNull number = JUndefined /\ what = js "undefined")
      /\ fst (run (Runs.answering JNull)
                  (send_get_request isFinite toString Runs.args) Runs.fresh) =
         Done (Returns
                 {| content :=
                     [ {| type := js "text";
                          text := js "请求错误 (TypeError: Cannot read properties of "
                                  ++ what ++ js " (reading 'data'))" |} ];
                    isError := None |}).
Proof.
  split; [reflexivity|].
  apply (@send_get_request_unreadable_body_is_error number isFinite toString
           (Runs.answering JNull) Runs.fresh Runs.args JNull).
  - reflexivity.
  - left. reflexivity.
Defined.

(** X4 on a body that wraps the array [[1,2]] in [data]. *)
Lemma send_get_request_present_data_witness :
  fst (run (Runs.answering Runs.wrapped)
           (send_get_request isFinite toString Runs.args) Runs.fresh) <>
  Done (Returns {| content := [ {| type := js "text";
                                   text := js "请求成功: undefined" |} ];
                   isError := None |}).
Proof.
  apply (@send_get_request_present_data_is_not_undefined number isFinite
           toString toString_is_not_undefined
           (Runs.answering Runs.wrapped) Runs.fresh Runs.args
           [ (js "data", JArray [JNumber 1%Z; JNumber 2%Z]);
             (js "code", JNumber 0%Z) ]
           (JArray [JNumber 1%Z; JNumber 2%Z])).
  - reflexivity.
  - reflexivity.
  - discriminate.
Defined.

(** X8 on the theme "环保". *)
Lemma slogan_theme_witness :
  generate_slogan {| theme := js "环保" |} = generate_slogan {| theme := js "环保" |}
  /\ {| theme := js "环保" |} = {| theme := js "环保" |}.
Proof.
  split; [reflexivity|].
  apply (@generate_slogan_is_injective {| theme := js "环保" |}
                                      {| theme := js "环保" |}).
  reflexivity.
Defined.
